(** * backend/app.py: the HTTP front door of the AI Project Backend

    The module builds one FastAPI application, wraps it in Starlette's
    [CORSMiddleware] and registers two GET endpoints, [root] and [health].

    The development has four layers:
    - [Py]        the Python built-ins the code relies on (exceptions as a
                  result type, [str.lower], [str.join], [dict], [json.dumps]);
    - [Starlette] the parts of the imported library that the application
                  instantiates: header containers, responses, the CORS
                  middleware (starlette/middleware/cors.py) and the router;
    - [FastAPI]   the route decorator and the middleware stack;
    - [App]       backend/app.py itself, followed by the properties. *)

From Stdlib Require Import String Ascii List Bool Arith Lia.
From Stdlib Require Import Numbers.DecimalString.
Import ListNotations.
Open Scope list_scope.
Open Scope string_scope.

Set Implicit Arguments.

(* ===================================================================== *)
(** ** Python built-ins *)
(* ===================================================================== *)

Module Py.

(** Exceptions a call may raise. *)
Inductive exn : Type :=
| KeyError (key : string)
| RuntimeError (msg : string).

(** The outcome of a Python call: a value, or a raised exception. *)
Inductive result (A : Type) : Type :=
| Ok (a : A)
| Raise (e : exn).

Arguments Ok {A} a.
Arguments Raise {A} e.

Definition bind {A B : Type} (m : result A) (k : A -> result B) : result B :=
  match m with
  | Ok a => k a
  | Raise e => Raise e
  end.

Notation "x <- m ;; k" := (bind m (fun x => k))
  (at level 61, m at next level, right associativity).

(** [str.lower] on text decoded from latin-1: A-Z and the accented capitals
    0xC0-0xDE (0xD7, the multiplication sign, apart) move up by 32. *)
Definition lower_char (c : ascii) : ascii :=
  let n := nat_of_ascii c in
  if (((65 <=? n) && (n <=? 90))
      || ((192 <=? n) && (n <=? 222) && negb (n =? 215)))%nat
  then ascii_of_nat (n + 32)
  else c.

Fixpoint lower (s : string) : string :=
  match s with
  | EmptyString => EmptyString
  | String c s' => String (lower_char c) (lower s')
  end.

(** [sep.join(parts)] *)
Definition join (sep : string) (parts : list string) : string :=
  String.concat sep parts.

(** [str(n)] for a non-negative integer. *)
Definition str (n : nat) : string :=
  NilEmpty.string_of_uint (Nat.to_uint n).

(** [x in xs] for a sequence of strings. *)
Definition contains (x : string) (xs : list string) : bool :=
  existsb (String.eqb x) xs.

(** [s.split(",")]: the pieces between the separators, never empty. *)
Fixpoint split_on (sep : ascii) (s : string) : list string :=
  match s with
  | EmptyString => [EmptyString]
  | String c s' =>
      if Ascii.eqb c sep then EmptyString :: split_on sep s'
      else match split_on sep s' with
           | [] => [String c EmptyString]
           | piece :: rest => String c piece :: rest
           end
  end.

(** [str.isspace] on one latin-1 character. *)
Definition is_space (c : ascii) : bool :=
  let n := nat_of_ascii c in
  (((9 <=? n) && (n <=? 13)) || ((28 <=? n) && (n <=? 32))
   || (n =? 133) || (n =? 160))%nat.

Fixpoint lstrip (s : string) : string :=
  match s with
  | EmptyString => EmptyString
  | String c s' => if is_space c then lstrip s' else s
  end.

Fixpoint rstrip (s : string) : string :=
  match s with
  | EmptyString => EmptyString
  | String c s' =>
      match rstrip s' with
      | EmptyString => if is_space c then EmptyString else String c EmptyString
      | t => String c t
      end
  end.

(** [s.strip()] *)
Definition strip (s : string) : string := rstrip (lstrip s).

(** [needle in haystack] for strings. *)
Fixpoint substring_of (needle haystack : string) : bool :=
  prefix needle haystack
  || match haystack with
     | EmptyString => false
     | String _ h' => substring_of needle h'
     end.

(** A [dict] with string keys: insertion-ordered, one entry per key. *)
Definition dict (V : Type) : Type := list (string * V).


(** [d[k] = v]: overwrite in place, or append a new entry. *)
Fixpoint dict_set {V : Type} (k : string) (v : V) (d : dict V) : dict V :=
  match d with
  | [] => [(k, v)]
  | (k', v') :: d' =>
      if String.eqb k' k then (k, v) :: d' else (k', v') :: dict_set k v d'
  end.

(** [d.update(other)] *)
Definition dict_update {V : Type} (other d : dict V) : dict V :=
  fold_left (fun acc kv => dict_set (fst kv) (snd kv) acc) other d.

(** [sorted(set(xs))]: ascending by code point, duplicates dropped. *)
Fixpoint insert_sorted (x : string) (xs : list string) : list string :=
  match xs with
  | [] => [x]
  | y :: ys =>
      match String.compare x y with
      | Lt => x :: y :: ys
      | Eq => y :: ys
      | Gt => y :: insert_sorted x ys
      end
  end.

Definition sorted_set (xs : list string) : list string :=
  fold_right insert_sorted [] xs.

(** *** [json.dumps] on a [dict] of strings, as [JSONResponse.render] calls
    it: [ensure_ascii=False], [separators=(",", ":")]. *)

Definition dquote : ascii := ascii_of_nat 34.
Definition backslash : ascii := ascii_of_nat 92.

Definition hex_digit (n : nat) : ascii :=
  if (n <? 10)%nat then ascii_of_nat (48 + n) else ascii_of_nat (87 + n).

(** One character of [py_encode_basestring]: the quote, the backslash and
    the control characters below 0x20 are escaped, the rest is kept. *)
Definition escape_char (c : ascii) : string :=
  let n := nat_of_ascii c in
  let esc (t : string) := String backslash t in
  if (n =? 34)%nat then esc (String dquote EmptyString)
  else if (n =? 92)%nat then esc (String backslash EmptyString)
  else if (n =? 8)%nat then esc "b"
  else if (n =? 12)%nat then esc "f"
  else if (n =? 10)%nat then esc "n"
  else if (n =? 13)%nat then esc "r"
  else if (n =? 9)%nat then esc "t"
  else if (n <? 32)%nat then
    esc ("u00" ++ String (hex_digit (n / 16))
                     (String (hex_digit (n mod 16)) EmptyString))
  else String c EmptyString.

Fixpoint escape (s : string) : string :=
  match s with
  | EmptyString => EmptyString
  | String c s' => escape_char c ++ escape s'
  end.

Definition json_string (s : string) : string :=
  String dquote (escape s ++ String dquote EmptyString).

Definition json_item (kv : string * string) : string :=
  json_string (fst kv) ++ ":" ++ json_string (snd kv).

Definition json_dumps (d : dict string) : string :=
  "{" ++ join "," (map json_item d) ++ "}".

End Py.

Import Py.

(* ===================================================================== *)
(** ** Starlette: headers, responses, the CORS middleware, routing *)
(* ===================================================================== *)

Module Starlette.

(** *** starlette/datastructures.py *)

(** [Headers]: a case-insensitive multidict over the raw header list. The
    stored names are compared as they are; the queried name is lowered. *)
Definition Headers : Type := list (string * string).

Fixpoint first_value (k : string) (raw : Headers) : option string :=
  match raw with
  | [] => None
  | (k', v) :: raw' => if String.eqb k' k then Some v else first_value k raw'
  end.

(** [Headers.get(key)] *)
Definition Headers_get (key : string) (h : Headers) : option string :=
  first_value (lower key) h.

(** [Headers.__getitem__(key)] raises [KeyError] when the name is absent. *)
Definition Headers_getitem (key : string) (h : Headers) : result string :=
  match Headers_get key h with
  | Some v => Ok v
  | None => Raise (KeyError key)
  end.

(** [key in headers] *)
Definition Headers_contains (key : string) (h : Headers) : bool :=
  existsb (fun kv => String.eqb (fst kv) (lower key)) h.

Definition drop_key (k : string) (raw : Headers) : Headers :=
  filter (fun kv => negb (String.eqb (fst kv) k)) raw.

(** The loop of [MutableHeaders.__setitem__]: the first entry of that name
    is overwritten and the later ones deleted; with no entry, one is
    appended. *)
Fixpoint set_raw (k v : string) (raw : Headers) : Headers :=
  match raw with
  | [] => [(k, v)]
  | (k', v') :: raw' =>
      if String.eqb k' k then (k, v) :: drop_key k raw'
      else (k', v') :: set_raw k v raw'
  end.

Definition MutableHeaders_setitem (key value : string) (h : Headers) : Headers :=
  set_raw (lower key) value h.

(** [MutableHeaders.update(other)] *)
Definition MutableHeaders_update (other : dict string) (h : Headers) : Headers :=
  fold_left (fun acc kv => MutableHeaders_setitem (fst kv) (snd kv) acc) other h.

(** [MutableHeaders.add_vary_header(vary)] *)
Definition add_vary_header (vary : string) (h : Headers) : Headers :=
  let vary' :=
    match Headers_get "vary" h with
    | Some existing => join ", " [existing; vary]
    | None => vary
    end in
  MutableHeaders_setitem "vary" vary' h.

(** *** The ASGI view of one HTTP exchange *)

(** The connection scope of a request, with the body its receive channel
    delivers. A server hands header names over in lower case. *)
Record Request : Type := {
  method : string;
  path : string;
  query_string : string;
  headers : Headers;
  request_body : string
}.

(** What is sent back: the [http.response.start] message (status, raw
    headers) and the body bytes. *)
Record Response : Type := {
  status_code : nat;
  raw_headers : Headers;
  body : string
}.

(** An ASGI application, run on one request. An exception that escapes it
    is a [Raise]. *)
Definition ASGIApp : Type := Request -> result Response.

(** *** starlette/responses.py *)

Definition charset : string := "utf-8".

(** [Response.init_headers] *)
Definition init_headers (status : nat) (content : string)
    (media_type : option string) (hdrs : option (dict string)) : Headers :=
  let raw :=
    match hdrs with
    | None => []
    | Some h => map (fun kv => (lower (fst kv), snd kv)) h
    end in
  let keys := map fst raw in
  let populate_content_length := negb (contains "content-length" keys) in
  let populate_content_type := negb (contains "content-type" keys) in
  let raw :=
    if populate_content_length
       && negb ((status <? 200) || (status =? 204) || (status =? 304))%nat
    then (raw ++ [("content-length", str (String.length content))])%list
    else raw in
  match media_type with
  | Some content_type =>
      if populate_content_type then
        let content_type :=
          if prefix "text/" content_type
             && negb (substring_of "charset=" (lower content_type))
          then content_type ++ "; charset=" ++ charset
          else content_type in
        (raw ++ [("content-type", content_type)])%list
      else raw
  | None => raw
  end.

(** [PlainTextResponse(text, status_code, headers)] *)
Definition PlainTextResponse (text : string) (status : nat)
    (hdrs : option (dict string)) : Response :=
  {| status_code := status;
     raw_headers := init_headers status text (Some "text/plain") hdrs;
     body := text |}.

(** [JSONResponse(content, status_code, headers)] *)
Definition JSONResponse (content : dict string) (status : nat)
    (hdrs : option (dict string)) : Response :=
  let rendered := json_dumps content in
  {| status_code := status;
     raw_headers := init_headers status rendered (Some "application/json") hdrs;
     body := rendered |}.

(** *** starlette/middleware/cors.py *)

Definition ALL_METHODS : list string :=
  ["DELETE"; "GET"; "HEAD"; "OPTIONS"; "PATCH"; "POST"; "PUT"].

Definition SAFELISTED_HEADERS : list string :=
  ["Accept"; "Accept-Language"; "Content-Language"; "Content-Type"].

(** The attributes [CORSMiddleware.__init__] stores on [self]. A compiled
    [allow_origin_regex] is kept as its [fullmatch] test. *)
Record CORSMiddleware : Type := {
  allow_origins : list string;
  allow_methods : list string;
  allow_headers : list string;
  allow_all_origins : bool;
  allow_all_headers : bool;
  preflight_explicit_allow_origin : bool;
  allow_origin_regex : option (string -> bool);
  simple_headers : dict string;
  preflight_headers : dict string
}.

(** [CORSMiddleware.__init__] *)
Definition CORSMiddleware_init
    (origins methods hdrs : list string) (allow_credentials : bool)
    (origin_regex : option (string -> bool)) (expose_headers : list string)
    (max_age : nat) : CORSMiddleware :=
  let methods := if contains "*" methods then ALL_METHODS else methods in
  let all_origins := contains "*" origins in
  let all_headers := contains "*" hdrs in
  let explicit_origin := negb all_origins || allow_credentials in
  let simple : dict string := [] in
  let simple :=
    if all_origins then dict_set "Access-Control-Allow-Origin" "*" simple
    else simple in
  let simple :=
    if allow_credentials
    then dict_set "Access-Control-Allow-Credentials" "true" simple
    else simple in
  let simple :=
    match expose_headers with
    | [] => simple
    | _ => dict_set "Access-Control-Expose-Headers"
             (join ", " expose_headers) simple
    end in
  let preflight : dict string := [] in
  let preflight :=
    if explicit_origin then dict_set "Vary" "Origin" preflight
    else dict_set "Access-Control-Allow-Origin" "*" preflight in
  let preflight :=
    dict_update
      [("Access-Control-Allow-Methods", join ", " methods);
       ("Access-Control-Max-Age", str max_age)] preflight in
  let hdrs := sorted_set (SAFELISTED_HEADERS ++ hdrs)%list in
  let preflight :=
    match hdrs with
    | [] => preflight
    | _ => if negb all_headers
           then dict_set "Access-Control-Allow-Headers" (join ", " hdrs) preflight
           else preflight
    end in
  let preflight :=
    if allow_credentials
    then dict_set "Access-Control-Allow-Credentials" "true" preflight
    else preflight in
  {| allow_origins := origins;
     allow_methods := methods;
     allow_headers := map lower hdrs;
     allow_all_origins := all_origins;
     allow_all_headers := all_headers;
     preflight_explicit_allow_origin := explicit_origin;
     allow_origin_regex := origin_regex;
     simple_headers := simple;
     preflight_headers := preflight |}.

(** [CORSMiddleware.is_allowed_origin] *)
Definition is_allowed_origin (self : CORSMiddleware) (origin : string) : bool :=
  if allow_all_origins self then true
  else
    match allow_origin_regex self with
    | Some fullmatch =>
        if fullmatch origin then true else contains origin (allow_origins self)
    | None => contains origin (allow_origins self)
    end.

(** The [for ... break] loop of [preflight_response]: some requested header
    is not among the allowed ones. *)
Definition requested_header_refused (self : CORSMiddleware)
    (requested_headers : string) : bool :=
  existsb (fun header => negb (contains (strip header) (allow_headers self)))
          (map lower (split_on "," requested_headers)).

(** [CORSMiddleware.preflight_response] *)
Definition preflight_response (self : CORSMiddleware)
    (request_headers : Headers) : result Response :=
  requested_origin <- Headers_getitem "origin" request_headers ;;
  requested_method <-
    Headers_getitem "access-control-request-method" request_headers ;;
  let requested_headers :=
    Headers_get "access-control-request-headers" request_headers in
  let hdrs := preflight_headers self in
  let failures : list string := [] in
  let '(hdrs, failures) :=
    if is_allowed_origin self requested_origin then
      if preflight_explicit_allow_origin self
      then (dict_set "Access-Control-Allow-Origin" requested_origin hdrs,
            failures)
      else (hdrs, failures)
    else (hdrs, (failures ++ ["origin"])%list) in
  let failures :=
    if negb (contains requested_method (allow_methods self))
    then (failures ++ ["method"])%list
    else failures in
  let '(hdrs, failures) :=
    match requested_headers with
    | Some requested =>
        if allow_all_headers self
        then (dict_set "Access-Control-Allow-Headers" requested hdrs, failures)
        else if requested_header_refused self requested
             then (hdrs, (failures ++ ["headers"])%list)
             else (hdrs, failures)
    | None => (hdrs, failures)
    end in
  match failures with
  | [] => Ok (PlainTextResponse "OK" 200 (Some hdrs))
  | _ =>
      let failure_text := "Disallowed CORS " ++ join ", " failures in
      Ok (PlainTextResponse failure_text 400 (Some hdrs))
  end.

(** [CORSMiddleware.allow_explicit_origin] *)
Definition allow_explicit_origin (h : Headers) (origin : string) : Headers :=
  add_vary_header "Origin"
    (MutableHeaders_setitem "Access-Control-Allow-Origin" origin h).

(** [CORSMiddleware.send], on the [http.response.start] message of the
    wrapped application; the body messages pass through untouched. *)
Definition send (self : CORSMiddleware) (request_headers : Headers)
    (message : Response) : result Response :=
  let hdrs := MutableHeaders_update (simple_headers self) (raw_headers message) in
  origin <- Headers_getitem "Origin" request_headers ;;
  let has_cookie := Headers_contains "cookie" request_headers in
  let hdrs :=
    if allow_all_origins self && has_cookie
    then allow_explicit_origin hdrs origin
    else if negb (allow_all_origins self) && is_allowed_origin self origin
         then allow_explicit_origin hdrs origin
         else hdrs in
  Ok {| status_code := status_code message;
        raw_headers := hdrs;
        body := body message |}.

(** [CORSMiddleware.simple_response] *)
Definition simple_response (self : CORSMiddleware) (app : ASGIApp)
    (scope : Request) (request_headers : Headers) : result Response :=
  message <- app scope ;;
  send self request_headers message.

(** [CORSMiddleware.__call__] on an [http] scope. *)
Definition CORSMiddleware_call (self : CORSMiddleware) (app : ASGIApp)
    (scope : Request) : result Response :=
  let hdrs := headers scope in
  match Headers_get "origin" hdrs with
  | None => app scope
  | Some _ =>
      if String.eqb (method scope) "OPTIONS"
         && Headers_contains "access-control-request-method" hdrs
      then preflight_response self hdrs
      else simple_response self app scope hdrs
  end.

(** *** starlette/middleware/errors.py *)

(** [ServerErrorMiddleware.__call__] without a custom handler and with
    [debug] off: an exception of the wrapped application becomes the plain
    500 reply. *)
Definition ServerErrorMiddleware_call (app : ASGIApp) (scope : Request)
    : Response :=
  match app scope with
  | Ok response => response
  | Raise _ => PlainTextResponse "Internal Server Error" 500 None
  end.

(** *** starlette/routing.py *)

Inductive Match : Type := NONE | PARTIAL | FULL.

Definition newline : string := String (ascii_of_nat 10) EmptyString.

(** [compile_path(path).match(route_path)] for a path with no [{param}]
    segment: the pattern is the escaped path between [^] and [$], and [$]
    also holds just before one final line feed. *)
Definition path_regex_match (route_path request_path : string) : bool :=
  String.eqb request_path route_path
  || String.eqb request_path (route_path ++ newline).

(** [Route.matches] on an [http] scope. *)
Definition Route_matches (route_path : string) (route_methods : list string)
    (scope : Request) : Match :=
  if path_regex_match route_path (path scope) then
    match route_methods with
    | [] => FULL
    | _ => if negb (contains (method scope) route_methods)
           then PARTIAL else FULL
    end
  else NONE.

End Starlette.

Import Starlette.

(* ===================================================================== *)
(** ** FastAPI: the application object, its routes and middleware stack *)
(* ===================================================================== *)

Module FastAPI.

(** A path operation function with no parameters, as both endpoints of the
    application are: called with nothing, it returns a [dict] or raises. *)
Definition Endpoint : Type := unit -> result (dict string).

(** [APIRoute]: the attributes routing reads. *)
Record APIRoute : Type := {
  route_path : string;
  route_methods : list string;
  route_status_code : option nat;
  endpoint : Endpoint
}.

(** A middleware class with its keyword arguments, waiting for the
    application it wraps. *)
Definition Middleware : Type := ASGIApp -> ASGIApp.

(** The [FastAPI] object: metadata, [user_middleware], and in [routes] the
    routes the module adds with its decorators, in order. The routes the
    constructor itself sets up for the documentation ([/openapi.json],
    [/docs], [/docs/oauth2-redirect], [/redoc]) are not in this list: what
    they answer belongs to the [otherwise] of [Router_app]. *)
Record FastAPI : Type := {
  title : string;
  description : string;
  version : string;
  user_middleware : list Middleware;
  routes : list APIRoute
}.

(** [FastAPI(title=..., description=..., version=...)]: no middleware and
    no route of the module yet. *)
Definition FastAPI_init (t d v : string) : FastAPI :=
  {| title := t; description := d; version := v;
     user_middleware := []; routes := [] |}.

(** [app.add_middleware(cls, **options)]: [user_middleware.insert(0, ...)] *)
Definition add_middleware (m : Middleware) (app : FastAPI) : FastAPI :=
  {| title := title app; description := description app;
     version := version app;
     user_middleware := m :: user_middleware app;
     routes := routes app |}.

(** [@app.get(path)] applied to [func]: one more [APIRoute], methods
    [["GET"]], no explicit status code. *)
Definition get (p : string) (func : Endpoint) (app : FastAPI) : FastAPI :=
  {| title := title app; description := description app;
     version := version app;
     user_middleware := user_middleware app;
     routes := (routes app
                ++ [{| route_path := p; route_methods := ["GET"];
                       route_status_code := None; endpoint := func |}])%list |}.

(** The request handler of an [APIRoute] whose endpoint takes no
    parameter: run the endpoint and wrap what it returns in a
    [JSONResponse], status 200 unless the route names another. *)
Definition APIRoute_handle (r : APIRoute) (scope : Request) : result Response :=
  raw_response <- endpoint r tt ;;
  let status :=
    match route_status_code r with
    | Some code => code
    | None => 200
    end in
  Ok (JSONResponse raw_response status None).

(** [Router.app]: the first route that matches in full handles the request.
    [otherwise] stands for everything the framework does when none of the
    registered routes does: the documentation pages FastAPI serves under
    [/openapi.json], [/docs], [/docs/oauth2-redirect] and [/redoc] (their
    patterns accept neither [/] nor [/health]), the 405 reply on a partial
    match, the slash redirect and the 404 reply. Those replies depend on
    the route table; [otherwise] is one function for one table, so that
    two tables are compared only on requests a route matches in full, or
    under an [otherwise] of their own each. *)
Fixpoint Router_app (rs : list APIRoute) (otherwise : Request -> Response)
    (scope : Request) : result Response :=
  match rs with
  | [] => Ok (otherwise scope)
  | r :: rs' =>
      match Route_matches (route_path r) (route_methods r) scope with
      | FULL => APIRoute_handle r scope
      | _ => Router_app rs' otherwise scope
      end
  end.

(** [build_middleware_stack]: the server-error middleware outermost, then
    the user middleware in list order, innermost the router. *)
Definition build_middleware_stack (app : FastAPI)
    (otherwise : Request -> Response) : Request -> Response :=
  ServerErrorMiddleware_call
    (fold_right (fun (m : Middleware) inner => m inner)
                (Router_app (routes app) otherwise)
                (user_middleware app)).

End FastAPI.

Import FastAPI.

(* ===================================================================== *)
(** ** backend/app.py *)
(* ===================================================================== *)

Module App.

(** [allow_origins=[...]], line 15 *)
Definition cors_allow_origins : list string :=
  ["http://localhost:3000"; "http://localhost:5173"].

(** [allow_credentials=True], line 16 *)
Definition cors_allow_credentials : bool := true.

(** [allow_methods=["*"]], line 17 *)
Definition cors_allow_methods : list string := ["*"].

(** [allow_headers=["*"]], line 18 *)
Definition cors_allow_headers : list string := ["*"].

(** The [CORSMiddleware] instance the stack builds from lines 13-19; the
    options not named keep their defaults (no origin regex, no exposed
    header, [max_age=600]). *)
Definition cors : CORSMiddleware :=
  CORSMiddleware_init cors_allow_origins cors_allow_methods
    cors_allow_headers cors_allow_credentials None [] 600.

(** [async def root()], lines 22-25 *)
Definition root : Endpoint :=
  fun _ => Ok [("message", "AI Project Backend is running")].

(** [async def health()], lines 28-31 *)
Definition health : Endpoint :=
  fun _ => Ok [("status", "healthy")].

(** The module body, top to bottom: construct, add the middleware,
    register the two routes. *)
Definition app : FastAPI :=
  get "/health" health
    (get "/" root
       (add_middleware (CORSMiddleware_call cors)
          (FastAPI_init "AI Project Backend"
             "Production-ready AI application backend" "1.0.0"))).

(** The application as the server drives it, one request in, one response
    out. *)
Definition serve (otherwise : Request -> Response) : Request -> Response :=
  build_middleware_stack app otherwise.

(** The application with any route table behind the same middleware. *)
Definition serve_routes (rs : list APIRoute)
    (otherwise : Request -> Response) : Request -> Response :=
  ServerErrorMiddleware_call
    (CORSMiddleware_call cors (Router_app rs otherwise)).

(** The value of one response header. *)
Definition header (name : string) (r : Response) : option string :=
  Headers_get name (raw_headers r).


(** The framework's reply to an unknown path. *)
Definition not_found : Request -> Response :=
  fun _ => JSONResponse [("detail", "Not Found")] 404 None.

(** The framework's reply when the path matches a route and the method
    does not. *)
Definition method_not_allowed : Request -> Response :=
  fun _ => JSONResponse [("detail", "Method Not Allowed")] 405
             (Some [("Allow", "GET")]).

Definition GET (p : string) (h : Headers) : Request :=
  {| method := "GET"; path := p; query_string := ""; headers := h;
     request_body := "" |}.

Definition OPTIONS (p : string) (h : Headers) : Request :=
  {| method := "OPTIONS"; path := p; query_string := ""; headers := h;
     request_body := "" |}.

(** The test of [CORSMiddleware.__call__] for a preflight request. *)
Definition is_preflight (scope : Request) : bool :=
  String.eqb (method scope) "OPTIONS"
  && Headers_contains "access-control-request-method" (headers scope).

(** The application without its middleware: the router under the
    server-error middleware alone. *)
Definition serve_unfiltered (otherwise : Request -> Response)
    : Request -> Response :=
  ServerErrorMiddleware_call (Router_app (routes app) otherwise).

(** Status and body of a response. *)
Definition payload (r : Response) : nat * string :=
  (status_code r, body r).

Definition root_payload : dict string :=
  [("message", "AI Project Backend is running")].

Definition health_payload : dict string :=
  [("status", "healthy")].

Definition evil : string := "http://evil.example".

(** The headers [CORSMiddleware.send] leaves on a response of this
    application when the request named the origin [o]. *)
Definition shaped (o : string) (raw : Headers) : Headers :=
  let raw :=
    MutableHeaders_setitem "Access-Control-Allow-Credentials" "true" raw in
  if contains o cors_allow_origins then allow_explicit_origin raw o else raw.

(** One double quote, as text. *)
Definition q : string := String dquote EmptyString.


(** An application whose every call raises. *)
Definition failing_app : ASGIApp := fun _ => Raise (RuntimeError "boom").

(** The header names [CORSMiddleware.send] writes. *)
Definition shaped_names : list string :=
  ["access-control-allow-credentials"; "access-control-allow-origin"; "vary"].

(** Replace [lower] of a literal header name by its value. *)
Ltac lower_names :=
  repeat match goal with
  | |- context [lower ?s] =>
      let s' := eval vm_compute in (lower s) in change (lower s) with s'
  end.

(* ===================================================================== *)
(** ** Header containers *)
(* ===================================================================== *)

Section HeaderLemmas.

Lemma first_value_drop_key (k k' : string) (raw : Headers) :
  k' <> k -> first_value k' (drop_key k raw) = first_value k' raw.
Proof.
  intros Hne. induction raw as [|[a v] raw IH]; simpl; [reflexivity|].
  destruct (String.eqb a k) eqn:Eak; simpl.
  - apply String.eqb_eq in Eak. subst a.
    destruct (String.eqb k k') eqn:Ekk'.
    + apply String.eqb_eq in Ekk'. congruence.
    + exact IH.
  - destruct (String.eqb a k'); [reflexivity | exact IH].
Qed.

Lemma first_value_set_raw_same (k v : string) (raw : Headers) :
  first_value k (set_raw k v raw) = Some v.
Proof.
  induction raw as [|[a w] raw IH]; simpl.
  - now rewrite String.eqb_refl.
  - destruct (String.eqb a k) eqn:Eak; simpl.
    + now rewrite String.eqb_refl.
    + now rewrite Eak.
Qed.

Lemma first_value_set_raw_other (k k' v : string) (raw : Headers) :
  k' <> k -> first_value k' (set_raw k v raw) = first_value k' raw.
Proof.
  intros Hne. induction raw as [|[a w] raw IH]; simpl.
  - destruct (String.eqb k k') eqn:E; [|reflexivity].
    apply String.eqb_eq in E. congruence.
  - destruct (String.eqb a k) eqn:Eak; simpl.
    + apply String.eqb_eq in Eak. subst a.
      destruct (String.eqb k k') eqn:E.
      * apply String.eqb_eq in E. congruence.
      * now apply first_value_drop_key.
    + destruct (String.eqb a k'); [reflexivity | exact IH].
Qed.

Lemma Headers_contains_get (key : string) (h : Headers) :
  Headers_contains key h = true -> exists v, Headers_get key h = Some v.
Proof.
  unfold Headers_contains, Headers_get. generalize (lower key) as k. intro k.
  induction h as [|[a v] h IH]; simpl; [discriminate|].
  destruct (String.eqb a k); simpl; [eauto | exact IH].
Qed.

Lemma contains_In (x : string) (xs : list string) :
  contains x xs = true <-> In x xs.
Proof.
  unfold contains. rewrite existsb_exists. split.
  - intros [y [Hin Heq]]. apply String.eqb_eq in Heq. now subst.
  - intros Hin. exists x. split; [assumption | apply String.eqb_refl].
Qed.

Lemma contains_not_In (x : string) (xs : list string) :
  contains x xs = false <-> ~ In x xs.
Proof.
  rewrite <- contains_In. destruct (contains x xs); split; congruence.
Qed.

End HeaderLemmas.

(* ===================================================================== *)
(** ** The middleware instance of the application *)
(* ===================================================================== *)

Section Middleware.

Lemma is_allowed_origin_cors (o : string) :
  is_allowed_origin cors o = contains o cors_allow_origins.
Proof. reflexivity. Qed.

Lemma allowed_two (o : string) :
  In o cors_allow_origins <->
  o = "http://localhost:3000" \/ o = "http://localhost:5173".
Proof. unfold cors_allow_origins. simpl. intuition congruence. Qed.

Lemma getitem_Origin (h : Headers) (o : string) :
  Headers_get "origin" h = Some o -> Headers_getitem "Origin" h = Ok o.
Proof.
  unfold Headers_getitem, Headers_get. lower_names. intros H. now rewrite H.
Qed.

Lemma getitem_some (key : string) (h : Headers) (v : string) :
  Headers_get key h = Some v -> Headers_getitem key h = Ok v.
Proof. unfold Headers_getitem. intros H. now rewrite H. Qed.

Lemma send_cors (h : Headers) (o : string) (m : Response) :
  Headers_get "origin" h = Some o ->
  send cors h m = Ok {| status_code := status_code m;
                        raw_headers := shaped o (raw_headers m);
                        body := body m |}.
Proof.
  intros Ho. unfold send. rewrite (getitem_Origin _ Ho). simpl bind.
  rewrite is_allowed_origin_cors.
  change (allow_all_origins cors) with false.
  change (simple_headers cors)
    with [("Access-Control-Allow-Credentials", "true")].
  unfold shaped. simpl. destruct (contains o cors_allow_origins); reflexivity.
Qed.

Lemma shaped_credentials (o : string) (raw : Headers) :
  Headers_get "Access-Control-Allow-Credentials" (shaped o raw) = Some "true".
Proof.
  unfold shaped, allow_explicit_origin, add_vary_header,
    MutableHeaders_setitem, Headers_get.
  lower_names.
  destruct (contains o cors_allow_origins).
  - rewrite first_value_set_raw_other by discriminate.
    rewrite first_value_set_raw_other by discriminate.
    apply first_value_set_raw_same.
  - apply first_value_set_raw_same.
Qed.

Lemma shaped_origin_allowed (o : string) (raw : Headers) :
  In o cors_allow_origins ->
  Headers_get "Access-Control-Allow-Origin" (shaped o raw) = Some o.
Proof.
  intros Hin. apply contains_In in Hin.
  unfold shaped. rewrite Hin.
  unfold allow_explicit_origin, add_vary_header, MutableHeaders_setitem,
    Headers_get.
  lower_names.
  rewrite first_value_set_raw_other by discriminate.
  apply first_value_set_raw_same.
Qed.

Lemma shaped_origin_refused (o : string) (raw : Headers) :
  ~ In o cors_allow_origins ->
  Headers_get "Access-Control-Allow-Origin" (shaped o raw)
  = Headers_get "Access-Control-Allow-Origin" raw.
Proof.
  intros Hin. apply contains_not_In in Hin.
  unfold shaped. rewrite Hin.
  unfold MutableHeaders_setitem, Headers_get. lower_names.
  now rewrite first_value_set_raw_other by discriminate.
Qed.

(** What [preflight_response] answers, by the three things it reads. *)
Lemma preflight_cors (h : Headers) (o : string) :
  Headers_get "origin" h = Some o ->
  Headers_contains "access-control-request-method" h = true ->
  exists r,
    preflight_response cors h = Ok r
    /\ header "Access-Control-Allow-Credentials" r = Some "true"
    /\ (In o cors_allow_origins ->
        header "Access-Control-Allow-Origin" r = Some o)
    /\ (~ In o cors_allow_origins ->
        header "Access-Control-Allow-Origin" r = None
        /\ status_code r = 400
        /\ prefix "Disallowed CORS origin" (body r) = true)
    /\ (forall rh, Headers_get "access-control-request-headers" h = Some rh ->
        header "Access-Control-Allow-Headers" r = Some rh).
Proof.
  intros Ho Hm. destruct (Headers_contains_get _ _ Hm) as [m Hm'].
  unfold preflight_response.
  rewrite (getitem_some _ _ Ho), (getitem_some _ _ Hm').
  cbv beta iota delta [bind].
  rewrite is_allowed_origin_cors.
  change (allow_methods cors) with ALL_METHODS.
  change (allow_all_headers cors) with true.
  change (preflight_explicit_allow_origin cors) with true.
  destruct (contains o cors_allow_origins) eqn:Eo;
    [ pose proof (proj1 (contains_In _ _) Eo) as Hin
    | pose proof (proj1 (contains_not_In _ _) Eo) as Hin ];
    destruct (contains m ALL_METHODS);
    destruct (Headers_get "access-control-request-headers" h) as [rh|];
    eexists; (split; [reflexivity|]);
    repeat split; intros; try contradiction; try discriminate;
    repeat match goal with
           | H : Some _ = Some _ |- _ => inversion H; subst; clear H
           end;
    reflexivity.
Qed.

(** The router of the application, by cases on the request. *)
Lemma router_app_routes (otherwise : Request -> Response) (scope : Request) :
  Router_app (routes app) otherwise scope =
    if path_regex_match "/" (path scope) && String.eqb (method scope) "GET"
    then Ok (JSONResponse root_payload 200 None)
    else if path_regex_match "/health" (path scope)
            && String.eqb (method scope) "GET"
         then Ok (JSONResponse health_payload 200 None)
         else Ok (otherwise scope).
Proof.
  change (routes app)
    with [ {| route_path := "/"; route_methods := ["GET"];
              route_status_code := None; endpoint := root |};
           {| route_path := "/health"; route_methods := ["GET"];
              route_status_code := None; endpoint := health |} ].
  unfold Router_app, Route_matches, contains. simpl existsb.
  simpl route_path.
  destruct (path_regex_match "/" (path scope));
    destruct (path_regex_match "/health" (path scope));
    destruct (String.eqb (method scope) "GET"); reflexivity.
Qed.

Lemma router_app_ok (otherwise : Request -> Response) (scope : Request) :
  exists m, Router_app (routes app) otherwise scope = Ok m.
Proof.
  rewrite router_app_routes.
  destruct (_ && _); [eauto|]. destruct (_ && _); eauto.
Qed.

Lemma serve_eq_serve_routes (otherwise : Request -> Response) :
  serve otherwise = serve_routes (routes app) otherwise.
Proof. reflexivity. Qed.

Lemma serve_routes_no_origin (rs : list APIRoute)
    (otherwise : Request -> Response) (scope : Request) :
  Headers_get "origin" (headers scope) = None ->
  serve_routes rs otherwise scope
  = ServerErrorMiddleware_call (Router_app rs otherwise) scope.
Proof.
  intros Ho. unfold serve_routes, ServerErrorMiddleware_call,
    CORSMiddleware_call.
  now rewrite Ho.
Qed.

Lemma serve_routes_simple (rs : list APIRoute)
    (otherwise : Request -> Response) (scope : Request) (o : string)
    (m : Response) :
  Headers_get "origin" (headers scope) = Some o ->
  is_preflight scope = false ->
  Router_app rs otherwise scope = Ok m ->
  serve_routes rs otherwise scope
  = {| status_code := status_code m;
       raw_headers := shaped o (raw_headers m);
       body := body m |}.
Proof.
  intros Ho Hp Hm. unfold serve_routes, ServerErrorMiddleware_call,
    CORSMiddleware_call.
  rewrite Ho. unfold is_preflight in Hp. rewrite Hp.
  unfold simple_response. rewrite Hm. cbv beta iota delta [bind].
  now rewrite (send_cors _ m Ho).
Qed.

Lemma serve_routes_preflight (rs : list APIRoute)
    (otherwise : Request -> Response) (scope : Request) (o : string)
    (r : Response) :
  Headers_get "origin" (headers scope) = Some o ->
  is_preflight scope = true ->
  preflight_response cors (headers scope) = Ok r ->
  serve_routes rs otherwise scope = r.
Proof.
  intros Ho Hp Hr. unfold serve_routes, ServerErrorMiddleware_call,
    CORSMiddleware_call.
  rewrite Ho. unfold is_preflight in Hp. rewrite Hp. now rewrite Hr.
Qed.

Lemma get_not_preflight (scope : Request) :
  method scope = "GET" -> is_preflight scope = false.
Proof. intros Hm. unfold is_preflight. now rewrite Hm. Qed.

(** A GET passes through the middleware with status and body as the
    router produced them. *)
Lemma serve_get_payload (otherwise : Request -> Response) (scope : Request)
    (m : Response) :
  method scope = "GET" ->
  Router_app (routes app) otherwise scope = Ok m ->
  payload (serve otherwise scope) = payload m.
Proof.
  intros Hg Hm. rewrite serve_eq_serve_routes.
  destruct (Headers_get "origin" (headers scope)) as [o|] eqn:Ho.
  - now rewrite (serve_routes_simple _ _ _ Ho (get_not_preflight _ Hg) Hm).
  - rewrite (serve_routes_no_origin _ _ _ Ho).
    unfold ServerErrorMiddleware_call. now rewrite Hm.
Qed.

Lemma router_get_root (otherwise : Request -> Response) (scope : Request) :
  method scope = "GET" -> path scope = "/" ->
  Router_app (routes app) otherwise scope
  = Ok (JSONResponse root_payload 200 None).
Proof. intros Hm Hp. rewrite router_app_routes, Hm, Hp. reflexivity. Qed.

Lemma router_get_health (otherwise : Request -> Response) (scope : Request) :
  method scope = "GET" -> path scope = "/health" ->
  Router_app (routes app) otherwise scope
  = Ok (JSONResponse health_payload 200 None).
Proof. intros Hm Hp. rewrite router_app_routes, Hm, Hp. reflexivity. Qed.

(** The bytes of the two bodies. *)
Lemma root_body_text :
  json_dumps root_payload
  = "{" ++ q ++ "message" ++ q ++ ":" ++ q
        ++ "AI Project Backend is running" ++ q ++ "}".
Proof. reflexivity. Qed.

Lemma health_body_text :
  json_dumps health_payload
  = "{" ++ q ++ "status" ++ q ++ ":" ++ q ++ "healthy" ++ q ++ "}".
Proof. reflexivity. Qed.

Lemma router_response_cases (otherwise : Request -> Response)
    (scope : Request) (m : Response) :
  Router_app (routes app) otherwise scope = Ok m ->
  m = JSONResponse root_payload 200 None
  \/ m = JSONResponse health_payload 200 None
  \/ m = otherwise scope.
Proof.
  rewrite router_app_routes.
  destruct (_ && _); [intros [= <-]; auto|].
  destruct (_ && _); intros [= <-]; auto.
Qed.

Lemma router_no_allow_origin (otherwise : Request -> Response)
    (scope : Request) (m : Response) :
  (forall s, header "Access-Control-Allow-Origin" (otherwise s) = None) ->
  Router_app (routes app) otherwise scope = Ok m ->
  header "Access-Control-Allow-Origin" m = None.
Proof.
  intros Hother Hm.
  destruct (router_response_cases _ _ Hm) as [->|[->| ->]];
    [reflexivity | reflexivity | apply Hother].
Qed.

Lemma preflight_has_method (scope : Request) :
  is_preflight scope = true ->
  Headers_contains "access-control-request-method" (headers scope) = true.
Proof. unfold is_preflight. intros H. now apply andb_true_iff in H. Qed.

(** The allow-origin header of every response of the application. *)
Lemma serve_allow_origin (otherwise : Request -> Response) (scope : Request) :
  (forall s, header "Access-Control-Allow-Origin" (otherwise s) = None) ->
  header "Access-Control-Allow-Origin" (serve otherwise scope)
  = match Headers_get "origin" (headers scope) with
    | Some o => if contains o cors_allow_origins then Some o else None
    | None => None
    end.
Proof.
  intros Hother. rewrite serve_eq_serve_routes.
  destruct (router_app_ok otherwise scope) as [m Hm].
  pose proof (router_no_allow_origin _ _ Hother Hm) as Hnone.
  destruct (Headers_get "origin" (headers scope)) as [o|] eqn:Ho.
  - destruct (is_preflight scope) eqn:Hp.
    + destruct (preflight_cors _ Ho (preflight_has_method _ Hp))
        as [r [Hr [_ [Hyes [Hno _]]]]].
      rewrite (serve_routes_preflight _ _ _ Ho Hp Hr).
      destruct (contains o cors_allow_origins) eqn:Eo.
      * apply Hyes. now apply contains_In.
      * apply Hno. now apply contains_not_In.
    + rewrite (serve_routes_simple _ _ _ Ho Hp Hm).
      unfold header. cbn [raw_headers].
      destruct (contains o cors_allow_origins) eqn:Eo.
      * apply shaped_origin_allowed. now apply contains_In.
      * rewrite shaped_origin_refused by now apply contains_not_In.
        exact Hnone.
  - rewrite (serve_routes_no_origin _ _ _ Ho).
    unfold ServerErrorMiddleware_call. now rewrite Hm.
Qed.

(** Every response to a request that names an origin permits
    credentials. *)
Lemma serve_allow_credentials (otherwise : Request -> Response)
    (scope : Request) (o : string) :
  Headers_get "origin" (headers scope) = Some o ->
  header "Access-Control-Allow-Credentials" (serve otherwise scope)
  = Some "true".
Proof.
  intros Ho. rewrite serve_eq_serve_routes.
  destruct (router_app_ok otherwise scope) as [m Hm].
  destruct (is_preflight scope) eqn:Hp.
  - destruct (preflight_cors _ Ho (preflight_has_method _ Hp))
      as [r [Hr [Hc _]]].
    now rewrite (serve_routes_preflight _ _ _ Ho Hp Hr).
  - rewrite (serve_routes_simple _ _ _ Ho Hp Hm).
    unfold header. cbn [raw_headers]. apply shaped_credentials.
Qed.

Lemma Headers_get_contains (key : string) (h : Headers) (v : string) :
  Headers_get key h = Some v -> Headers_contains key h = true.
Proof.
  unfold Headers_contains, Headers_get. generalize (lower key) as k. intro k.
  induction h as [|[a w] h IH]; simpl; [discriminate|].
  destruct (String.eqb a k); simpl; [reflexivity | exact IH].
Qed.

Lemma options_is_preflight (scope : Request) (m : string) :
  method scope = "OPTIONS" ->
  Headers_get "access-control-request-method" (headers scope) = Some m ->
  is_preflight scope = true.
Proof.
  intros Hm Hr. unfold is_preflight.
  now rewrite Hm, (Headers_get_contains _ _ Hr).
Qed.

(** Everything [preflight_response] puts in its reply. *)
Lemma preflight_exact (h : Headers) (o m : string) :
  Headers_get "origin" h = Some o ->
  Headers_get "access-control-request-method" h = Some m ->
  exists r,
    preflight_response cors h = Ok r
    /\ status_code r
       = (if contains o cors_allow_origins && contains m ALL_METHODS
          then 200 else 400)
    /\ body r
       = (if contains o cors_allow_origins
          then if contains m ALL_METHODS then "OK"
               else "Disallowed CORS method"
          else if contains m ALL_METHODS then "Disallowed CORS origin"
               else "Disallowed CORS origin, method")
    /\ header "Access-Control-Allow-Methods" r
       = Some "DELETE, GET, HEAD, OPTIONS, PATCH, POST, PUT"
    /\ header "Access-Control-Max-Age" r = Some "600"
    /\ header "Vary" r = Some "Origin"
    /\ header "Content-Type" r = Some "text/plain; charset=utf-8"
    /\ header "Content-Length" r = Some (str (String.length (body r))).
Proof.
  intros Ho Hm. unfold preflight_response.
  rewrite (getitem_some _ _ Ho), (getitem_some _ _ Hm).
  cbv beta iota delta [bind].
  rewrite is_allowed_origin_cors.
  change (allow_methods cors) with ALL_METHODS.
  change (allow_all_headers cors) with true.
  change (preflight_explicit_allow_origin cors) with true.
  destruct (contains o cors_allow_origins);
    destruct (contains m ALL_METHODS);
    destruct (Headers_get "access-control-request-headers" h) as [rh|];
    eexists; (split; [reflexivity|]); repeat split; reflexivity.
Qed.

End Middleware.

(* ===================================================================== *)
(** ** The two endpoints *)
(* ===================================================================== *)

Section Endpoints.

Variable otherwise : Request -> Response.

(** C1. Every GET request to [/] is answered with status 200 and a body
    that is exactly the JSON object with the one member [message],
    ["AI Project Backend is running"]. *)
Theorem root_get_ok (scope : Request) :
  method scope = "GET" -> path scope = "/" ->
  status_code (serve otherwise scope) = 200
  /\ body (serve otherwise scope)
     = json_dumps [("message", "AI Project Backend is running")]
  /\ body (serve otherwise scope)
     = "{" ++ q ++ "message" ++ q ++ ":" ++ q
           ++ "AI Project Backend is running" ++ q ++ "}".
Proof.
  intros Hm Hp.
  pose proof (serve_get_payload otherwise scope Hm
                (router_get_root otherwise scope Hm Hp)) as H.
  unfold payload in H. injection H as Hs Hb.
  rewrite Hs, Hb. repeat split; reflexivity.
Qed.

(** C2. Every GET request to [/health] is answered with status 200 and a
    body that is exactly the JSON object with the one member [status],
    ["healthy"]. *)
Theorem health_get_ok (scope : Request) :
  method scope = "GET" -> path scope = "/health" ->
  status_code (serve otherwise scope) = 200
  /\ body (serve otherwise scope) = json_dumps [("status", "healthy")]
  /\ body (serve otherwise scope)
     = "{" ++ q ++ "status" ++ q ++ ":" ++ q ++ "healthy" ++ q ++ "}".
Proof.
  intros Hm Hp.
  pose proof (serve_get_payload otherwise scope Hm
                (router_get_health otherwise scope Hm Hp)) as H.
  unfold payload in H. injection H as Hs Hb.
  rewrite Hs, Hb. repeat split; reflexivity.
Qed.

(** C3. Requests to the same route get the same payload whatever their
    headers, query string and body: any sequence of N GET requests to [/]
    (or to [/health]) yields N copies of one fixed status and body. *)
Theorem payload_constant (p : string) (reqs : list Request) :
  In p ["/"; "/health"] ->
  Forall (fun s => method s = "GET" /\ path s = p) reqs ->
  map (fun s => payload (serve otherwise s)) reqs
  = repeat (200, json_dumps (if String.eqb p "/" then root_payload
                             else health_payload))
           (List.length reqs).
Proof.
  intros Hp Hall. induction Hall as [|s reqs [Hm Hpath] _ IH];
    [reflexivity|].
  simpl. f_equal; [|exact IH].
  destruct Hp as [<-|[<-|[]]].
  - now rewrite (serve_get_payload otherwise s Hm
                   (router_get_root otherwise s Hm Hpath)).
  - now rewrite (serve_get_payload otherwise s Hm
                   (router_get_health otherwise s Hm Hpath)).
Qed.

(** C6. Both handlers are total and ignore the request: called with
    nothing they return their fixed dictionary and never raise, so every
    GET delivered to [/] or [/health] comes out of the router and of the
    middleware as a response, with status 200, and never as an exception
    or as the 500 reply. *)
Theorem handlers_total (scope : Request) :
  method scope = "GET" -> In (path scope) ["/"; "/health"] ->
  (forall u, root u = Ok root_payload)
  /\ (forall u, health u = Ok health_payload)
  /\ (exists m, Router_app (routes app) otherwise scope = Ok m
                /\ status_code m = 200)
  /\ (exists r, CORSMiddleware_call cors
                  (Router_app (routes app) otherwise) scope = Ok r
                /\ status_code r = 200)
  /\ status_code (serve otherwise scope) <> 500.
Proof.
  intros Hm Hp.
  assert (Hr : exists d, Router_app (routes app) otherwise scope
                         = Ok (JSONResponse d 200 None)).
  { destruct Hp as [Hp|[Hp|[]]]; symmetry in Hp.
    - exists root_payload. now apply router_get_root.
    - exists health_payload. now apply router_get_health. }
  destruct Hr as [d Hr].
  split; [reflexivity|]. split; [reflexivity|].
  split; [eexists; split; [exact Hr | reflexivity]|].
  split.
  - unfold CORSMiddleware_call.
    destruct (Headers_get "origin" (headers scope)) as [o|] eqn:Ho.
    + pose proof (get_not_preflight _ Hm) as Hpf.
      unfold is_preflight in Hpf. rewrite Hpf.
      unfold simple_response. rewrite Hr.
      cbv beta iota delta [bind]. rewrite (send_cors _ _ Ho).
      eexists; split; reflexivity.
    + eexists; split; [exact Hr | reflexivity].
  - pose proof (serve_get_payload otherwise scope Hm Hr) as H.
    unfold payload in H. injection H as Hs _. rewrite Hs. simpl. lia.
Qed.

End Endpoints.

(** A GET to [/] that names a foreign origin and a cookie. *)
Lemma root_get_ok_witness :
  let scope := GET "/" [("origin", evil); ("cookie", "a=b")] in
  method scope = "GET" /\ path scope = "/"
  /\ status_code (serve not_found scope) = 200
  /\ body (serve not_found scope)
     = json_dumps [("message", "AI Project Backend is running")].
Proof.
  intro scope. split; [reflexivity|]. split; [reflexivity|].
  destruct (root_get_ok not_found scope eq_refl eq_refl) as [Hs [Hb _]].
  split; assumption.
Defined.

(** A bare GET to [/health]. *)
Lemma health_get_ok_witness :
  let scope := GET "/health" [] in
  method scope = "GET" /\ path scope = "/health"
  /\ status_code (serve not_found scope) = 200
  /\ body (serve not_found scope) = json_dumps [("status", "healthy")].
Proof.
  intro scope. split; [reflexivity|]. split; [reflexivity|].
  destruct (health_get_ok not_found scope eq_refl eq_refl) as [Hs [Hb _]].
  split; assumption.
Defined.

(** Three different GET requests to [/health]. *)
Lemma payload_constant_witness :
  let reqs :=
    [ GET "/health" [];
      GET "/health" [("origin", "http://localhost:5173")];
      {| method := "GET"; path := "/health"; query_string := "verbose=1";
         headers := [("origin", evil)]; request_body := "ignored" |} ] in
  In "/health" ["/"; "/health"]
  /\ Forall (fun s => method s = "GET" /\ path s = "/health") reqs
  /\ map (fun s => payload (serve not_found s)) reqs
     = repeat (200, json_dumps health_payload) 3.
Proof.
  intro reqs.
  assert (Hin : In "/health" ["/"; "/health"]) by (simpl; auto).
  assert (Hall : Forall (fun s => method s = "GET" /\ path s = "/health") reqs)
    by (repeat constructor).
  split; [exact Hin|]. split; [exact Hall|].
  exact (payload_constant not_found Hin Hall).
Defined.

(** A GET to [/] from a listed origin. *)
Lemma handlers_total_witness :
  let scope := GET "/" [("origin", "http://localhost:3000")] in
  method scope = "GET" /\ In (path scope) ["/"; "/health"]
  /\ status_code (serve method_not_allowed scope) <> 500.
Proof.
  intro scope.
  assert (Hin : In (path scope) ["/"; "/health"]) by (simpl; auto).
  split; [reflexivity|]. split; [exact Hin|].
  exact (proj2 (proj2 (proj2 (proj2
           (handlers_total method_not_allowed scope eq_refl Hin))))).
Defined.

(* ===================================================================== *)
(** ** The cross-origin policy *)
(* ===================================================================== *)

Section CrossOrigin.

Variable otherwise : Request -> Response.


(** C5, as amended. A request whose [Origin] is not in the allow-list and
    which is not a preflight is processed as usual: status and body are
    those of the application without the filter, and the filter adds no
    allow-origin header. A preflight (OPTIONS with
    [Access-Control-Request-Method]) from such an origin is answered by
    the filter itself: status 400, a text that starts with
    [Disallowed CORS origin], no allow-origin header. *)
Theorem foreign_origin_outcome (scope : Request) (o : string) :
  Headers_get "origin" (headers scope) = Some o ->
  ~ In o (allow_origins cors) ->
  (is_preflight scope = false ->
   payload (serve otherwise scope)
   = payload (serve_unfiltered otherwise scope)
   /\ header "Access-Control-Allow-Origin" (serve otherwise scope)
      = header "Access-Control-Allow-Origin"
          (serve_unfiltered otherwise scope))
  /\ (is_preflight scope = true ->
      status_code (serve otherwise scope) = 400
      /\ prefix "Disallowed CORS origin" (body (serve otherwise scope)) = true
      /\ header "Access-Control-Allow-Origin" (serve otherwise scope) = None).
Proof.
  intros Ho Hin. change (allow_origins cors) with cors_allow_origins in Hin.
  rewrite serve_eq_serve_routes. split; intros Hp.
  - destruct (router_app_ok otherwise scope) as [m Hm].
    rewrite (serve_routes_simple _ _ _ Ho Hp Hm).
    unfold serve_unfiltered, ServerErrorMiddleware_call. rewrite Hm.
    split; [reflexivity|].
    unfold header. cbn [raw_headers]. now apply shaped_origin_refused.
  - destruct (preflight_cors _ Ho (preflight_has_method _ Hp))
      as [r [Hr [_ [_ [Hno _]]]]].
    rewrite (serve_routes_preflight _ _ _ Ho Hp Hr).
    destruct (Hno Hin) as [H1 [H2 H3]]. auto.
Qed.



(** C10. With the explicit two-origin list and credentials allowed, an
    allow-origin header on a response always repeats the [Origin] of the
    request, that origin is one of the two listed, and the value is never
    the wildcard; the header is absent for every other origin. (The
    framework's own replies are taken to carry no allow-origin header of
    their own.) *)
Theorem allow_origin_echoes (scope : Request) (v : string) :
  (forall s, header "Access-Control-Allow-Origin" (otherwise s) = None) ->
  header "Access-Control-Allow-Origin" (serve otherwise scope) = Some v ->
  Headers_get "origin" (headers scope) = Some v
  /\ In v (allow_origins cors)
  /\ v <> "*"
  /\ header "Access-Control-Allow-Credentials" (serve otherwise scope)
     = Some "true".
Proof.
  intros Hother Hv. rewrite (serve_allow_origin otherwise scope Hother) in Hv.
  destruct (Headers_get "origin" (headers scope)) as [o|] eqn:Ho;
    [|discriminate].
  destruct (contains o cors_allow_origins) eqn:Eo; [|discriminate].
  injection Hv as <-. apply contains_In in Eo.
  split; [reflexivity|]. split; [exact Eo|]. split.
  - apply allowed_two in Eo. destruct Eo as [-> | ->]; discriminate.
  - now apply serve_allow_credentials with o.
Qed.

End CrossOrigin.


(** C5, as stated, fails: a preflight from a foreign origin is refused by
    the filter with status 400, where the application without the filter
    answers 405 for the same request. *)
Lemma foreign_preflight_rejected :
  let scope :=
    OPTIONS "/" [("origin", evil); ("access-control-request-method", "GET")] in
  Headers_get "origin" (headers scope) = Some evil
  /\ ~ In evil (allow_origins cors)
  /\ payload (serve_unfiltered method_not_allowed scope)
     = (405, json_dumps [("detail", "Method Not Allowed")])
  /\ payload (serve method_not_allowed scope)
     = (400, "Disallowed CORS origin")
  /\ payload (serve method_not_allowed scope)
     <> payload (serve_unfiltered method_not_allowed scope).
Proof.
  intro scope. split; [reflexivity|]. split.
  - simpl. intros [H|[H|[]]]; discriminate.
  - split; [reflexivity|]. split; [reflexivity|]. discriminate.
Qed.

(** A plain GET and a preflight, both from a foreign origin. *)
Lemma foreign_origin_outcome_witness :
  let plain := GET "/" [("origin", evil)] in
  let preflight :=
    OPTIONS "/" [("origin", evil); ("access-control-request-method", "GET")] in
  Headers_get "origin" (headers plain) = Some evil
  /\ Headers_get "origin" (headers preflight) = Some evil
  /\ ~ In evil (allow_origins cors)
  /\ payload (serve not_found plain)
     = payload (serve_unfiltered not_found plain)
  /\ status_code (serve not_found preflight) = 400.
Proof.
  intros plain preflight.
  assert (H1 : Headers_get "origin" (headers plain) = Some evil)
    by reflexivity.
  assert (H2 : Headers_get "origin" (headers preflight) = Some evil)
    by reflexivity.
  assert (H3 : ~ In evil (allow_origins cors))
    by (simpl; intros [H|[H|[]]]; discriminate).
  split; [exact H1|]. split; [exact H2|]. split; [exact H3|]. split.
  - destruct (@foreign_origin_outcome not_found plain evil H1 H3)
      as [Hplain _].
    apply Hplain. reflexivity.
  - destruct (@foreign_origin_outcome not_found preflight evil H2 H3)
      as [_ Hpre].
    apply Hpre. reflexivity.
Defined.




(** C9. The claim fails on a GET whose path is [/] followed by one line
    feed, as a server delivers [GET /%0A]: the path is neither [/] nor
    [/health], and still the router hands the request to [root] and the
    application answers 200 with the payload of [/], where the framework's
    not-found reply was due. The pattern of the route is meant for the
    exact path; its closing [$] also accepts a final line feed. *)
Lemma trailing_newline_reaches_root :
  let scope := GET ("/" ++ newline) [] in
  path scope <> "/" /\ path scope <> "/health"
  /\ Router_app (routes app) not_found scope
     = Ok (JSONResponse root_payload 200 None)
  /\ Router_app (routes app) not_found scope <> Ok (not_found scope)
  /\ payload (serve not_found scope) = (200, json_dumps root_payload)
  /\ payload (serve not_found scope) <> payload (not_found scope).
Proof.
  intro scope. split; [discriminate|]. split; [discriminate|].
  split; [reflexivity|]. split; [discriminate|].
  split; [reflexivity | discriminate].
Qed.

(** A GET to [/] from the second listed origin. *)
Lemma allow_origin_echoes_witness :
  let scope := GET "/" [("origin", "http://localhost:5173")] in
  (forall s, header "Access-Control-Allow-Origin" (not_found s) = None)
  /\ header "Access-Control-Allow-Origin" (serve not_found scope)
     = Some "http://localhost:5173"
  /\ Headers_get "origin" (headers scope) = Some "http://localhost:5173"
  /\ In "http://localhost:5173" (allow_origins cors)
  /\ "http://localhost:5173" <> "*".
Proof.
  intro scope.
  assert (H0 : forall s,
             header "Access-Control-Allow-Origin" (not_found s) = None)
    by (intro s; reflexivity).
  assert (H1 : header "Access-Control-Allow-Origin" (serve not_found scope)
               = Some "http://localhost:5173") by reflexivity.
  split; [exact H0|]. split; [exact H1|].
  destruct (@allow_origin_echoes not_found scope _ H0 H1)
    as [Ha [Hb [Hc _]]].
  split; [exact Ha|]. split; [exact Hb | exact Hc].
Defined.

(* ===================================================================== *)
(** ** Further properties of the filter and of the route table *)
(* ===================================================================== *)

Section HeaderCounts.





End HeaderCounts.

Section Filter.

Variable otherwise : Request -> Response.

(** X1. A request that carries no [Origin] header is not touched by the
    filter: status, headers and body are those of the application without
    it. *)
Theorem no_origin_untouched (scope : Request) :
  Headers_get "origin" (headers scope) = None ->
  serve otherwise scope = serve_unfiltered otherwise scope.
Proof.
  intros Ho. rewrite serve_eq_serve_routes.
  now rewrite (serve_routes_no_origin _ _ _ Ho).
Qed.

(** X2. A preflight is accepted, with status 200, exactly when its origin
    is one of the two listed and the method it asks for is one of the
    seven of [ALL_METHODS]; every other preflight gets status 400. Neither
    the path nor the request headers asked for play a part. *)
Theorem preflight_accepted_iff (scope : Request) (o m : string) :
  method scope = "OPTIONS" ->
  Headers_get "origin" (headers scope) = Some o ->
  Headers_get "access-control-request-method" (headers scope) = Some m ->
  (status_code (serve otherwise scope) = 200 <->
   In o (allow_origins cors) /\ In m ALL_METHODS)
  /\ (status_code (serve otherwise scope) <> 200 ->
      status_code (serve otherwise scope) = 400).
Proof.
  intros Hopt Ho Hm.
  destruct (preflight_exact _ Ho Hm) as [r [Hr [Hs _]]].
  rewrite serve_eq_serve_routes.
  rewrite (serve_routes_preflight _ _ _ Ho (options_is_preflight _ Hopt Hm) Hr).
  rewrite Hs. change (allow_origins cors) with cors_allow_origins.
  rewrite <- !contains_In.
  destruct (contains o cors_allow_origins); destruct (contains m ALL_METHODS);
    simpl; split; try tauto; try (split; [discriminate | intros [? ?]; discriminate]).
Qed.

(** X3. The text of a preflight reply names what was refused: [OK] when
    nothing was, [Disallowed CORS origin], [Disallowed CORS method] or
    [Disallowed CORS origin, method] otherwise. Accepted or refused, the
    reply lists the seven methods, a max-age of 600 and [Vary: Origin], is
    plain text, and its content-length is the length of its body. *)
Theorem preflight_reply (scope : Request) (o m : string) :
  method scope = "OPTIONS" ->
  Headers_get "origin" (headers scope) = Some o ->
  Headers_get "access-control-request-method" (headers scope) = Some m ->
  body (serve otherwise scope)
  = (if contains o (allow_origins cors)
     then if contains m ALL_METHODS then "OK" else "Disallowed CORS method"
     else if contains m ALL_METHODS then "Disallowed CORS origin"
          else "Disallowed CORS origin, method")
  /\ header "Access-Control-Allow-Methods" (serve otherwise scope)
     = Some "DELETE, GET, HEAD, OPTIONS, PATCH, POST, PUT"
  /\ header "Access-Control-Max-Age" (serve otherwise scope) = Some "600"
  /\ header "Vary" (serve otherwise scope) = Some "Origin"
  /\ header "Content-Type" (serve otherwise scope)
     = Some "text/plain; charset=utf-8"
  /\ header "Content-Length" (serve otherwise scope)
     = Some (str (String.length (body (serve otherwise scope)))).
Proof.
  intros Hopt Ho Hm.
  destruct (preflight_exact _ Ho Hm) as [r [Hr [_ H]]].
  rewrite serve_eq_serve_routes.
  rewrite (serve_routes_preflight _ _ _ Ho (options_is_preflight _ Hopt Hm) Hr).
  exact H.
Qed.

(** X4. The filter raises nothing of its own: around any application, a
    call that ends in an exception ends in the exception the wrapped
    application raised on the same request. *)
Theorem filter_adds_no_exception (inner : ASGIApp) (scope : Request)
    (e : exn) :
  CORSMiddleware_call cors inner scope = Raise e ->
  inner scope = Raise e.
Proof.
  unfold CORSMiddleware_call.
  destruct (Headers_get "origin" (headers scope)) as [o|] eqn:Ho;
    [|trivial].
  destruct (String.eqb (method scope) "OPTIONS"
            && Headers_contains "access-control-request-method"
                 (headers scope)) eqn:Hp.
  - apply andb_true_iff in Hp. destruct Hp as [_ Hc].
    destruct (preflight_cors _ Ho Hc) as [r [Hr _]].
    rewrite Hr. discriminate.
  - unfold simple_response. destruct (inner scope) as [m|e'].
    + cbv beta iota delta [bind]. rewrite (send_cors _ m Ho). discriminate.
    + trivial.
Qed.


Lemma shaped_other (o : string) (raw : Headers) (k : string) :
  ~ In k shaped_names ->
  first_value k (shaped o raw) = first_value k raw.
Proof.
  intros Hk.
  assert (H1 : k <> "access-control-allow-credentials")
    by (intros ->; apply Hk; simpl; auto).
  assert (H2 : k <> "access-control-allow-origin")
    by (intros ->; apply Hk; simpl; auto).
  assert (H3 : k <> "vary") by (intros ->; apply Hk; simpl; auto).
  unfold shaped, allow_explicit_origin, add_vary_header,
    MutableHeaders_setitem.
  lower_names.
  destruct (contains o cors_allow_origins).
  - rewrite !first_value_set_raw_other by assumption. reflexivity.
  - rewrite first_value_set_raw_other by assumption. reflexivity.
Qed.




(** X7. On a request that is not a preflight the filter writes three
    headers and no other: every header of another name (content-type,
    content-length, whatever a route sets) reaches the client with the
    value the route gave it. *)
Theorem filter_keeps_other_headers (scope : Request) (o name : string) :
  Headers_get "origin" (headers scope) = Some o ->
  is_preflight scope = false ->
  ~ In (lower name) shaped_names ->
  header name (serve otherwise scope)
  = header name (serve_unfiltered otherwise scope).
Proof.
  intros Ho Hp Hn.
  destruct (router_app_ok otherwise scope) as [m Hm].
  rewrite serve_eq_serve_routes, (serve_routes_simple _ _ _ Ho Hp Hm).
  unfold serve_unfiltered, ServerErrorMiddleware_call. rewrite Hm.
  unfold header, Headers_get. cbn [raw_headers].
  now apply shaped_other.
Qed.


(** X9. The whole response to a GET on [/] or [/health], headers
    included, is decided by the value of the [Origin] header: two such
    requests that agree on it get the same response, whatever else they
    carry. *)
Theorem endpoint_response_by_origin (p : string) (s1 s2 : Request) :
  In p ["/"; "/health"] ->
  method s1 = "GET" -> path s1 = p ->
  method s2 = "GET" -> path s2 = p ->
  Headers_get "origin" (headers s1) = Headers_get "origin" (headers s2) ->
  serve otherwise s1 = serve otherwise s2.
Proof.
  intros Hp Hm1 Hp1 Hm2 Hp2 Ho.
  assert (Hr : exists m, Router_app (routes app) otherwise s1 = Ok m
                         /\ Router_app (routes app) otherwise s2 = Ok m).
  { destruct Hp as [<-|[<-|[]]].
    - eexists. split; now apply router_get_root.
    - eexists. split; now apply router_get_health. }
  destruct Hr as [m [Hr1 Hr2]]. rewrite serve_eq_serve_routes.
  destruct (Headers_get "origin" (headers s1)) as [o|] eqn:Ho1;
    symmetry in Ho.
  - rewrite (serve_routes_simple _ _ _ Ho1 (get_not_preflight _ Hm1) Hr1).
    now rewrite (serve_routes_simple _ _ _ Ho (get_not_preflight _ Hm2) Hr2).
  - rewrite (serve_routes_no_origin _ _ _ Ho1).
    rewrite (serve_routes_no_origin _ _ _ Ho).
    unfold ServerErrorMiddleware_call. now rewrite Hr1, Hr2.
Qed.

Lemma router_app_later (rs : list APIRoute) (other : Request -> Response)
    (scope : Request) :
  Router_app (routes app ++ rs) other scope =
    if path_regex_match "/" (path scope) && String.eqb (method scope) "GET"
    then Ok (JSONResponse root_payload 200 None)
    else if path_regex_match "/health" (path scope)
            && String.eqb (method scope) "GET"
         then Ok (JSONResponse health_payload 200 None)
         else Router_app rs other scope.
Proof.
  change (routes app ++ rs)%list
    with ({| route_path := "/"; route_methods := ["GET"];
             route_status_code := None; endpoint := root |}
          :: {| route_path := "/health"; route_methods := ["GET"];
                route_status_code := None; endpoint := health |}
          :: rs).
  cbn [Router_app]. unfold Route_matches, contains. simpl existsb.
  simpl route_path.
  destruct (path_regex_match "/" (path scope));
    destruct (path_regex_match "/health" (path scope));
    destruct (String.eqb (method scope) "GET"); reflexivity.
Qed.

Lemma cors_call_ext (inner1 inner2 : ASGIApp) (scope : Request) :
  inner1 scope = inner2 scope ->
  CORSMiddleware_call cors inner1 scope
  = CORSMiddleware_call cors inner2 scope.
Proof.
  intros H. unfold CORSMiddleware_call, simple_response. now rewrite H.
Qed.

(** X10. Routes registered after the two endpoints cannot take them over:
    with any routes appended to the table, and whatever the framework does
    with the requests no route accepts, a GET on [/] or [/health] gets the
    very response it gets now. *)
Theorem later_routes_do_not_shadow (rs : list APIRoute)
    (other : Request -> Response) (scope : Request) :
  method scope = "GET" -> In (path scope) ["/"; "/health"] ->
  Router_app (routes app ++ rs) other scope
  = Router_app (routes app) otherwise scope
  /\ serve_routes (routes app ++ rs) other scope = serve otherwise scope.
Proof.
  intros Hm Hp.
  assert (Hr : Router_app (routes app ++ rs) other scope
               = Router_app (routes app) otherwise scope).
  { rewrite router_app_later, router_app_routes, Hm.
    destruct Hp as [Hp|[Hp|[]]]; rewrite <- Hp; reflexivity. }
  split; [exact Hr|].
  rewrite serve_eq_serve_routes.
  unfold serve_routes, ServerErrorMiddleware_call.
  now rewrite (@cors_call_ext (Router_app (routes app ++ rs) other)
                 (Router_app (routes app) otherwise) scope Hr).
Qed.

(** X11. The response to a GET on [/] or [/health] always declares its
    body: content-type [application/json] and a content-length equal to
    the number of bytes of the body, also after the filter has written its
    headers. *)
Theorem endpoint_declares_body (scope : Request) :
  method scope = "GET" -> In (path scope) ["/"; "/health"] ->
  header "Content-Type" (serve otherwise scope) = Some "application/json"
  /\ header "Content-Length" (serve otherwise scope)
     = Some (str (String.length (body (serve otherwise scope)))).
Proof.
  intros Hm Hp.
  assert (Hr : exists d, Router_app (routes app) otherwise scope
                         = Ok (JSONResponse d 200 None)
                         /\ (d = root_payload \/ d = health_payload)).
  { destruct Hp as [Hp|[Hp|[]]]; symmetry in Hp.
    - exists root_payload. split; [now apply router_get_root | auto].
    - exists health_payload. split; [now apply router_get_health | auto]. }
  destruct Hr as [d [Hr Hd]]. rewrite serve_eq_serve_routes.
  destruct (Headers_get "origin" (headers scope)) as [o|] eqn:Ho.
  - rewrite (serve_routes_simple _ _ _ Ho (get_not_preflight _ Hm) Hr).
    unfold header, Headers_get. cbn [raw_headers body]. lower_names.
    rewrite !shaped_other
      by (unfold shaped_names; simpl; intros [H|[H|[H|[]]]]; discriminate).
    destruct Hd as [-> | ->]; split; reflexivity.
  - rewrite (serve_routes_no_origin _ _ _ Ho).
    unfold ServerErrorMiddleware_call. rewrite Hr.
    destruct Hd as [-> | ->]; split; reflexivity.
Qed.

End Filter.

(** A bare GET, with no [Origin]. *)
Lemma no_origin_untouched_witness :
  let scope := GET "/" [("accept", "*/*")] in
  Headers_get "origin" (headers scope) = None
  /\ serve not_found scope = serve_unfiltered not_found scope.
Proof.
  intro scope.
  assert (H : Headers_get "origin" (headers scope) = None) by reflexivity.
  split; [exact H|]. exact (@no_origin_untouched not_found scope H).
Defined.

(** A preflight for GET from the first listed origin, on a path no route
    serves. *)
Lemma preflight_accepted_iff_witness :
  let scope :=
    OPTIONS "/nowhere" [("origin", "http://localhost:3000");
                        ("access-control-request-method", "GET")] in
  method scope = "OPTIONS"
  /\ Headers_get "origin" (headers scope) = Some "http://localhost:3000"
  /\ Headers_get "access-control-request-method" (headers scope) = Some "GET"
  /\ status_code (serve not_found scope) = 200.
Proof.
  intro scope.
  assert (H1 : Headers_get "origin" (headers scope)
               = Some "http://localhost:3000") by reflexivity.
  assert (H2 : Headers_get "access-control-request-method" (headers scope)
               = Some "GET") by reflexivity.
  split; [reflexivity|]. split; [exact H1|]. split; [exact H2|].
  destruct (@preflight_accepted_iff not_found scope _ _ eq_refl H1 H2)
    as [Hiff _].
  apply Hiff. split; simpl; auto.
Defined.

(** A preflight from the first listed origin that asks for a method
    outside the seven. *)
Lemma preflight_reply_witness :
  let scope :=
    OPTIONS "/" [("origin", "http://localhost:3000");
                 ("access-control-request-method", "PROPFIND")] in
  method scope = "OPTIONS"
  /\ Headers_get "origin" (headers scope) = Some "http://localhost:3000"
  /\ Headers_get "access-control-request-method" (headers scope)
     = Some "PROPFIND"
  /\ body (serve method_not_allowed scope) = "Disallowed CORS method".
Proof.
  intro scope.
  assert (H1 : Headers_get "origin" (headers scope)
               = Some "http://localhost:3000") by reflexivity.
  assert (H2 : Headers_get "access-control-request-method" (headers scope)
               = Some "PROPFIND") by reflexivity.
  split; [reflexivity|]. split; [exact H1|]. split; [exact H2|].
  destruct (@preflight_reply method_not_allowed scope _ _ eq_refl H1 H2)
    as [Hb _].
  exact Hb.
Defined.

(** The filter around an application that raises. *)
Lemma filter_adds_no_exception_witness :
  let scope := GET "/" [("origin", "http://localhost:3000")] in
  CORSMiddleware_call cors failing_app scope = Raise (RuntimeError "boom")
  /\ failing_app scope = Raise (RuntimeError "boom").
Proof.
  intro scope.
  assert (H : CORSMiddleware_call cors failing_app scope
              = Raise (RuntimeError "boom")) by reflexivity.
  split; [exact H|]. exact (@filter_adds_no_exception failing_app scope _ H).
Defined.


(** The content type of a GET from a foreign origin. *)
Lemma filter_keeps_other_headers_witness :
  let scope := GET "/health" [("origin", evil)] in
  Headers_get "origin" (headers scope) = Some evil
  /\ is_preflight scope = false
  /\ ~ In (lower "Content-Type") shaped_names
  /\ header "Content-Type" (serve not_found scope)
     = header "Content-Type" (serve_unfiltered not_found scope).
Proof.
  intro scope.
  assert (H1 : Headers_get "origin" (headers scope) = Some evil)
    by reflexivity.
  assert (H2 : is_preflight scope = false) by reflexivity.
  assert (H3 : ~ In (lower "Content-Type") shaped_names)
    by (simpl; intros [H|[H|[H|[]]]]; discriminate).
  split; [exact H1|]. split; [exact H2|]. split; [exact H3|].
  exact (@filter_keeps_other_headers not_found scope _ _ H1 H2 H3).
Defined.


(** Two requests to [/] that agree on the origin and on nothing else. *)
Lemma endpoint_response_by_origin_witness :
  let s1 := GET "/" [("origin", evil); ("cookie", "a=b")] in
  let s2 : Request :=
    {| method := "GET"; path := "/"; query_string := "x=1";
       headers := [("accept", "text/html"); ("origin", evil)];
       request_body := "ignored" |} in
  In "/" ["/"; "/health"]
  /\ Headers_get "origin" (headers s1) = Headers_get "origin" (headers s2)
  /\ serve not_found s1 = serve not_found s2.
Proof.
  intros s1 s2.
  assert (H0 : In "/" ["/"; "/health"]) by (simpl; auto).
  assert (H1 : Headers_get "origin" (headers s1)
               = Headers_get "origin" (headers s2)) by reflexivity.
  split; [exact H0|]. split; [exact H1|].
  exact (@endpoint_response_by_origin not_found "/" s1 s2 H0
           eq_refl eq_refl eq_refl eq_refl H1).
Defined.

(** A second route on [/] registered after the two endpoints, under
    another default reply. *)
Lemma later_routes_do_not_shadow_witness :
  let usurper : APIRoute :=
    {| route_path := "/"; route_methods := ["GET"];
       route_status_code := None;
       endpoint := fun _ => Ok [("message", "taken over")] |} in
  let scope := GET "/" [] in
  method scope = "GET" /\ In (path scope) ["/"; "/health"]
  /\ serve_routes (routes app ++ [usurper]) method_not_allowed scope
     = serve not_found scope.
Proof.
  intros usurper scope.
  assert (H : In (path scope) ["/"; "/health"]) by (simpl; auto).
  split; [reflexivity|]. split; [exact H|].
  exact (proj2 (@later_routes_do_not_shadow not_found [usurper]
                  method_not_allowed scope eq_refl H)).
Defined.

(** A GET to [/health] from a listed origin. *)
Lemma endpoint_declares_body_witness :
  let scope := GET "/health" [("origin", "http://localhost:3000")] in
  method scope = "GET" /\ In (path scope) ["/"; "/health"]
  /\ header "Content-Length" (serve not_found scope) = Some "20".
Proof.
  intro scope.
  assert (H : In (path scope) ["/"; "/health"]) by (simpl; auto).
  split; [reflexivity|]. split; [exact H|].
  exact (proj2 (@endpoint_declares_body not_found scope eq_refl H)).
Defined.

End App.
